(** * The books REST API of [src/server.js]: the in-memory store and its handlers

    The Express application keeps one global array, [books], and registers
    six route handlers that read and mutate it.  The array is modelled as a
    [list Book] passed through every handler (the handlers run one at a time,
    to completion), a handler as a function from the store and the request to
    the new store and the response it sends. *)

From stdpp Require Import list strings pretty sorting.

(** ** JavaScript values the handlers touch *)

(** The numbers of this program.  The seed ids are the integers 1 and 2,
    [POST /books] adds 1 to an id, and [PUT /books/:id] stores the number
    it has just found [===] to a stored id; [Number] applied to a string that
    is no numeric literal is [NaN].  So the ids are integers, or [NaN] in a
    store that already holds one.  Integer arithmetic is taken exact, as it
    is on doubles below 2^53.  A fraction or an infinity, which [Number] can
    return as well, is [===] to no integer and is not represented: for the
    handlers it behaves as [NaN] does. *)
Inductive jsnum : Type :=
  | NaN
  | Num (z : Z).

Global Instance jsnum_eq_dec : EqDecision jsnum.
Proof. solve_decision. Defined.

(** [a === b] on numbers: [NaN] is equal to nothing, itself included. *)
Definition strict_eq (a b : jsnum) : bool :=
  match a, b with
  | Num x, Num y => (x =? y)%Z
  | _, _ => false
  end.

(** [a + b] on numbers. *)
Definition add (a b : jsnum) : jsnum :=
  match a, b with
  | Num x, Num y => Num (x + y)
  | _, _ => NaN
  end.

(** A number inside a template literal: [`${n}`]. *)
Definition to_string (a : jsnum) : string :=
  match a with
  | NaN => "NaN"
  | Num z => pretty z
  end.

(** [Array.prototype.findIndex]; [None] stands for the result -1. *)
Fixpoint findIndex {A : Type} (p : A → bool) (l : list A) : option nat :=
  match l with
  | [] => None
  | x :: l' => if p x then Some 0 else S <$> findIndex p l'
  end.

(** [Array.prototype.find] is [List.find]: the first element that satisfies
    the predicate, [None] for [undefined]. *)

(** An instance of the builtin [Number] on strings, used to run the handlers
    on concrete requests: a string of decimal digits is read as that integer
    (the empty string as 0), as the builtin does below 2^53; every other
    string gives [NaN].  The builtin accepts more literals (signs, white space, fractions,
    exponents, hexadecimal); the theorems below hold for any [Number]. *)
Definition digit_of (c : Ascii.ascii) : option Z :=
  let n := Z.of_nat (Ascii.nat_of_ascii c) in
  if ((48 <=? n) && (n <=? 57))%Z then Some (n - 48)%Z else None.

Fixpoint digits (s : string) (acc : Z) : option Z :=
  match s with
  | EmptyString => Some acc
  | String c s' =>
      match digit_of c with
      | Some d => digits s' (10 * acc + d)%Z
      | None => None
      end
  end.

Definition Number_decimal (s : string) : jsnum :=
  match digits s 0 with
  | Some z => Num z
  | None => NaN
  end.

(** ** Records, requests and responses *)

(** A book, as the object literals of the source build it. *)
Record Book : Type := mkBook {
  id : jsnum;
  title : string;
  author : string
}.

Global Instance Book_eq_dec : EqDecision Book.
Proof. solve_decision. Defined.

(** [req.body] after [express.json()]: the handlers read [title] and
    [author], which they copy without looking at them (strings here, as in
    the data model of the specification); an [id] in the payload is carried
    along and never read. *)
Record Body : Type := mkBody {
  body_id : option jsnum;
  body_title : string;
  body_author : string
}.

(** The part of [req] the handlers use: [req.params.id] and [req.body]. *)
Record Request : Type := mkRequest {
  params_id : string;
  body : Body
}.

(** The [links] object of a response envelope. *)
Record Links : Type := mkLinks {
  self : string;
  collection : option string
}.

(** What is sent: nothing ([send()]), a JSON envelope around one book or
    around the list of books (each with its own links), or a text. *)
Inductive Payload : Type :=
  | Empty
  | JsonBook (data : Book) (links : Links)
  | JsonBooks (data : list (Book * Links)) (links : Links)
  | Text (s : string).

(** A response: the status, the headers the handler sets itself and the
    payload. *)
Record Response : Type := mkResponse {
  status : nat;
  headers : list (string * string);
  payload : Payload
}.

(** The one-character string holding a double quote. *)
Definition dquote : string := String (Ascii.ascii_of_nat 34) EmptyString.

(** [res.status(404).send()] *)
Definition not_found : Response := mkResponse 404 [] Empty.

(** [let books = \[ ... \]]: the value of [books] when the process starts. *)
Definition initial_books : list Book :=
  [ mkBook (Num 1) "Book1" "Author1";
    mkBook (Num 2) "Book2" "Author2" ].

(** The six routes registered on [app]. *)
Inductive Route : Type :=
  | GET_books
  | GET_books_id
  | POST_books
  | PUT_books_id
  | DELETE_books_id
  | GET_script.

Global Instance Route_eq_dec : EqDecision Route.
Proof. solve_decision. Defined.

(** ** The shape of the stores the process reaches *)

(** [below a b]: both are integers and [a < b]. *)
Definition below (a b : jsnum) : Prop :=
  match a, b with
  | Num x, Num y => (x < y)%Z
  | _, _ => False
  end.

(** A positive integer. *)
Definition positive_int (a : jsnum) : Prop :=
  match a with
  | Num x => (1 ≤ x)%Z
  | NaN => False
  end.

(** The ids are positive integers and increase strictly along the array:
    [POST /books] appends an id above the last one, [PUT] keeps the ids and
    [DELETE] removes one of them. *)
Definition well_formed (books : list Book) : Prop :=
  Forall positive_int (id <$> books) ∧ StronglySorted below (id <$> books).

Section Server.

(** The builtin [Number], applied by the handlers to [req.params.id]. *)
Variable Number : string → jsnum.

(** ** The handlers *)

(** The arrow function [(b) => b.id === Number(req.params.id)] that the
    handlers of [/books/:id] pass to [find] and [findIndex]. *)
Definition matches (req : Request) (b : Book) : bool :=
  strict_eq (id b) (Number (params_id req)).

(** [app.get("/books")] *)
Definition get_books (books : list Book) (req : Request) : list Book * Response :=
  let booksWithLinks :=
    (λ book, (book, mkLinks ("/books/" +:+ to_string (id book)) None)) <$> books in
  (books,
   mkResponse 200 [("Cache-Control", "public, max-age=60")]
     (JsonBooks booksWithLinks (mkLinks "/books" None))).

(** [app.get("/books/:id")] *)
Definition get_book (books : list Book) (req : Request) : list Book * Response :=
  match find (matches req) books with
  | None => (books, not_found)
  | Some book =>
      (books,
       mkResponse 200 []
         (JsonBook book
            (mkLinks ("/books/" +:+ to_string (id book)) (Some "/books"))))
  end.

(** [books.length ? books\[books.length - 1\].id + 1 : 1].  The index
    [books.length - 1] of a non-empty array is always in range; the last
    branch is there for totality only. *)
Definition newId (books : list Book) : jsnum :=
  if (length books =? 0)%nat then Num 1
  else match books !! (length books - 1)%nat with
       | Some b => add (id b) (Num 1)
       | None => NaN
       end.

(** [app.post("/books")] *)
Definition post_books (books : list Book) (req : Request) : list Book * Response :=
  let newId := newId books in
  let newBook := mkBook newId (body_title (body req)) (body_author (body req)) in
  (books ++ [newBook],
   mkResponse 201 []
     (JsonBook newBook (mkLinks ("/books/" +:+ to_string newId) None))).

(** [app.put("/books/:id")]: [books\[index\] = {...}], then the envelope
    reads [books\[index\]] back. *)
Definition put_book (books : list Book) (req : Request) : list Book * Response :=
  match findIndex (matches req) books with
  | None => (books, not_found)
  | Some index =>
      let updated :=
        mkBook (Number (params_id req))
          (body_title (body req)) (body_author (body req)) in
      let books' := <[index := updated]> books in
      (books',
       mkResponse 200 []
         (JsonBook (default updated (books' !! index))
            (mkLinks ("/books/" +:+ params_id req) None)))
  end.

(** [app.delete("/books/:id")]: [books.splice(index, 1)]. *)
Definition delete_book (books : list Book) (req : Request) : list Book * Response :=
  match findIndex (matches req) books with
  | None => (books, not_found)
  | Some index => (delete index books, mkResponse 204 [] Empty)
  end.

(** [app.get("/script")] *)
Definition get_script (books : list Book) (req : Request) : list Book * Response :=
  (books,
   mkResponse 200 [("Content-Type", "application/javascript")]
     (Text ("console.log(" +:+ dquote +:+ "Hello from code on demand!"
              +:+ dquote +:+ ")"))).

(** ** Serving requests *)

(** The router: the handler registered for a route. *)
Definition handle (books : list Book) (rt : Route) (req : Request)
  : list Book * Response :=
  match rt with
  | GET_books => get_books books req
  | GET_books_id => get_book books req
  | POST_books => post_books books req
  | PUT_books_id => put_book books req
  | DELETE_books_id => delete_book books req
  | GET_script => get_script books req
  end.

(** Requests are served one after the other; the responses are collected in
    the order of the requests. *)
Fixpoint serve (books : list Book) (reqs : list (Route * Request))
  : list Book * list Response :=
  match reqs with
  | [] => (books, [])
  | (rt, req) :: reqs' =>
      let '(books', res) := handle books rt req in
      let '(books'', ress) := serve books' reqs' in
      (books'', res :: ress)
  end.

(** The stores the process can be in: the initial one, and the store left by
    any handler run in such a store. *)
Inductive reachable : list Book → Prop :=
  | reachable_initial : reachable initial_books
  | reachable_handle books rt req :
      reachable books → reachable (handle books rt req).1.

(** The id a [POST /books] response announces, if it is one. *)
Definition created_id (rt : Route) (res : Response) : option jsnum :=
  match rt, payload res with
  | POST_books, JsonBook data _ => Some (id data)
  | _, _ => None
  end.

(** The ids given out by the [POST /books] requests among [reqs], in order. *)
Definition created_ids (books : list Book) (reqs : list (Route * Request))
  : list jsnum :=
  omap (λ p, created_id p.1.1 p.2) (zip reqs (serve books reqs).2).

(** ** Two sentences of the specification, as they are written *)

(** "Once Delete(i) removes the record with id i, no subsequently created
    record is ever assigned id i again": whatever is served after a
    successful [DELETE /books/i], the id the next [POST /books] would assign
    is not i. *)
Definition deleted_id_never_reused : Prop :=
  ∀ store req reqs,
    reachable store →
    status (delete_book store req).2 = 204 →
    newId (serve (delete_book store req).1 reqs).1 ≠ Number (params_id req).

(** A [POST /books] request with the given body. *)
Definition post (b : Body) : Route * Request := (POST_books, mkRequest "" b).

(** "Starting from the initial store, the id assigned to the n-th created
    record equals n" (the list position k stands for n = k + 1). *)
Definition nth_created_id_is_n : Prop :=
  ∀ bodies : list Body,
    created_ids initial_books (post <$> bodies)
      = (λ k, Num (Z.of_nat k + 1)) <$> seq 0 (length bodies).

End Server.

(** ** Sample requests, for running the handlers *)

(** A request on [/books/:id] with the given path id, title and author. *)
Definition on_id (i t a : string) : Request := mkRequest i (mkBody None t a).

(** The same, with an [id] in the payload as well. *)
Definition put_1_with_payload_id : Request :=
  mkRequest "1" (mkBody (Some (Num 7)) "X" "Y").

(** [DELETE /books/1], [POST /books], [PUT /books/2]. *)
Definition three_requests : list (Route * Request) :=
  [(DELETE_books_id, on_id "1" "" "");
   post (mkBody None "Book3" "Author3");
   (PUT_books_id, on_id "2" "X" "Y")].

(** [POST], [PUT /books/3], [GET /books], [POST]: no [DELETE]. *)
Definition four_requests : list (Route * Request) :=
  [post (mkBody None "Book3" "Author3");
   (PUT_books_id, on_id "3" "X" "Y");
   (GET_books, on_id "" "" "");
   post (mkBody None "" "")].

(** ** Reading routes *)

(** The routes registered with [app.get]. *)
Definition is_read (rt : Route) : bool :=
  match rt with
  | GET_books | GET_books_id | GET_script => true
  | POST_books | PUT_books_id | DELETE_books_id => false
  end.

(** [GET /books], [GET /books/2], [GET /script], [GET /books/7]. *)
Definition read_requests : list (Route * Request) :=
  [(GET_books, on_id "" "" "");
   (GET_books_id, on_id "2" "" "");
   (GET_script, on_id "" "" "");
   (GET_books_id, on_id "7" "" "")].

(** * Properties *)

Section Facts.

Variable Number : string → jsnum.

(** ** Strict equality, [findIndex] and [find] *)

Lemma strict_eq_true a b : strict_eq a b = true ↔ ∃ z, a = Num z ∧ b = Num z.
Proof.
  destruct a as [|x], b as [|y]; simpl;
    (split; [try discriminate | intros (z & Ha & Hb); try discriminate]).
  - intros ->%Z.eqb_eq. by exists y.
  - injection Ha as ->. injection Hb as ->. apply Z.eqb_refl.
Qed.

Lemma strict_eq_eq a b : strict_eq a b = true → a = b.
Proof. intros (z & -> & ->)%strict_eq_true. done. Qed.

Lemma strict_eq_NaN_r a : strict_eq a NaN = false.
Proof. by destruct a. Qed.

Section FindIndex.
Context {A : Type} (p : A → bool).

Lemma findIndex_None l : findIndex p l = None ↔ Forall (λ x, p x = false) l.
Proof.
  induction l as [|x l IH]; simpl.
  - split; [constructor | done].
  - destruct (p x) eqn:Hx.
    + split; [done | intros H; inversion H; congruence].
    + rewrite fmap_None, IH. split; [by constructor | intros H; by inversion H].
Qed.

Lemma findIndex_Some l i :
  findIndex p l = Some i ↔
  ∃ l1 x l2, l = l1 ++ x :: l2 ∧ length l1 = i ∧ p x = true
             ∧ Forall (λ y, p y = false) l1.
Proof.
  revert i. induction l as [|x l IH]; intros i; simpl.
  - split; [done | intros (l1 & y & l2 & H & _); by destruct l1].
  - destruct (p x) eqn:Hx.
    + split.
      * intros [= <-]. exists (@nil A), x, l. by repeat split.
      * intros (l1 & y & l2 & H & <- & Hy & Hl1).
        destruct l1 as [|z l1]; [done|].
        injection H as -> _. inversion Hl1; congruence.
    + rewrite fmap_Some. split.
      * intros (j & (l1 & y & l2 & -> & <- & Hy & Hl1)%IH & ->).
        exists (x :: l1), y, l2. repeat split; by try constructor.
      * intros (l1 & y & l2 & H & <- & Hy & Hl1).
        destruct l1 as [|z l1]; [simpl in H; congruence|].
        injection H as <- ->. exists (length l1). split; [|done].
        apply IH. exists l1, y, l2. by inversion Hl1.
Qed.

Lemma find_findIndex l : find p l = findIndex p l ≫= (l !!.).
Proof.
  induction l as [|x l IH]; simpl; [done|].
  destruct (p x); [done|]. rewrite IH. by destruct (findIndex p l).
Qed.

Lemma findIndex_is_Some l x : x ∈ l → p x = true → is_Some (findIndex p l).
Proof.
  intros Hx Hp. destruct (findIndex p l) eqn:H; [done|].
  apply findIndex_None in H. rewrite Forall_forall in H.
  specialize (H x Hx). congruence.
Qed.
End FindIndex.

Lemma newId_last store :
  newId store = match last store with
                | Some b => add (id b) (Num 1)
                | None => Num 1
                end.
Proof.
  unfold newId. rewrite last_lookup.
  destruct store as [|b store]; [done|].
  simpl length. rewrite Nat.sub_1_r. simpl.
  destruct (lookup_lt_is_Some_2 (b :: store) (length store)) as [x ->];
    [simpl; lia | done].
Qed.

(** ** The invariant of the reachable stores *)

Lemma StronglySorted_delete {A} (R : relation A) l i :
  StronglySorted R l → StronglySorted R (delete i l).
Proof.
  intros Hs. revert i.
  induction Hs as [|a l Hs IH Ha]; intros [|i]; simpl;
    [constructor | constructor | exact Hs |].
  constructor; [apply IH | by apply Forall_delete].
Qed.

Lemma below_irrefl a : ¬ below a a.
Proof. destruct a; simpl; lia. Qed.

Lemma StronglySorted_below_NoDup l : StronglySorted below l → NoDup l.
Proof.
  induction 1 as [|a l Hs IH Ha]; constructor; [|done].
  intros Hin. rewrite Forall_forall in Ha. by apply (below_irrefl a), Ha.
Qed.

Lemma well_formed_NoDup store : well_formed store → NoDup (id <$> store).
Proof. intros [_ Hs]. by apply StronglySorted_below_NoDup. Qed.

Lemma well_formed_initial : well_formed initial_books.
Proof.
  split; [by repeat constructor|].
  repeat constructor; simpl; lia.
Qed.

Lemma newId_ids s1 s2 : id <$> s1 = id <$> s2 → newId s1 = newId s2.
Proof.
  intros H. rewrite !newId_last.
  assert (id <$> last s1 = id <$> last s2) as Hl by (by rewrite <- !fmap_last, H).
  destruct (last s1), (last s2); simpl in Hl; congruence.
Qed.

Lemma newId_snoc store b : newId (store ++ [b]) = add (id b) (Num 1).
Proof. by rewrite newId_last, last_snoc. Qed.

Lemma well_formed_newId store :
  well_formed store →
  positive_int (newId store) ∧ Forall (λ b, below (id b) (newId store)) store.
Proof.
  intros [Hpos Hsort].
  destruct store as [|b0 store0] using rev_ind; [by split; [simpl; lia|]|].
  clear IHstore0. rewrite newId_snoc.
  rewrite fmap_app in Hpos, Hsort. simpl in Hpos, Hsort.
  apply Forall_app in Hpos as [_ Hb]. rewrite Forall_singleton in Hb.
  destruct (id b0) as [|z] eqn:Hz; [destruct Hb|]. simpl in Hb. simpl.
  split; [lia|].
  apply Forall_app. split.
  - apply Forall_forall. intros b Hin.
    assert (below (id b) (Num z)) as Hlt.
    { eapply (StronglySorted_app_1_elem_of _ _ _ _ _ Hsort);
        [by apply list_elem_of_fmap_2 | by apply list_elem_of_singleton]. }
    destruct (id b); simpl in *; lia.
  - apply Forall_singleton. rewrite Hz. simpl. lia.
Qed.

Lemma put_book_ids store req :
  id <$> (put_book Number store req).1 = id <$> store.
Proof.
  unfold put_book.
  destruct (findIndex _ store) as [index|] eqn:Hi; [|done].
  apply findIndex_Some in Hi as (l1 & old & l2 & -> & <- & Hold%strict_eq_eq & _).
  simpl. rewrite list_fmap_insert. apply list_insert_id.
  rewrite list_lookup_fmap, list_lookup_middle by done. simpl. by rewrite Hold.
Qed.

Lemma well_formed_handle store rt req :
  well_formed store → well_formed (handle Number store rt req).1.
Proof.
  intros Hwf. destruct rt; simpl; try done.
  - unfold get_book. by destruct (find _ _).
  - destruct (well_formed_newId store Hwf) as [Hpos Hlt].
    destruct Hwf as [Hp Hs]. split; rewrite fmap_app; simpl.
    + apply Forall_app. split; [done | by apply Forall_singleton].
    + apply StronglySorted_app_2; [|done|by repeat constructor].
      intros x1 x2 (b & -> & Hb)%list_elem_of_fmap ->%list_elem_of_singleton.
      rewrite Forall_forall in Hlt. by apply Hlt.
  - unfold well_formed. by rewrite put_book_ids.
  - unfold delete_book. destruct (findIndex _ store) as [index|]; [|done].
    destruct Hwf as [Hp Hs]. simpl. unfold well_formed.
    rewrite list_fmap_delete. split.
    + by apply Forall_delete.
    + by apply StronglySorted_delete.
Qed.

Lemma reachable_well_formed store : reachable Number store → well_formed store.
Proof.
  induction 1 as [|store rt req _ IH];
    [apply well_formed_initial | by apply well_formed_handle].
Qed.

Lemma reachable_serve store reqs :
  reachable Number store → reachable Number (serve Number store reqs).1.
Proof.
  revert store. induction reqs as [|[rt req] reqs IH]; intros store Hr; [done|].
  simpl. destruct (handle Number store rt req) as [store' res] eqn:Hh.
  specialize (IH store'). destruct (serve Number store' reqs) as [store'' ress].
  simpl in *. apply IH. replace store' with (handle Number store rt req).1
    by (by rewrite Hh). by constructor.
Qed.

(** ** Requests on [/books/:id] *)

Lemma matches_self req b :
  matches Number req b = true →
  id b = Number (params_id req)
  ∧ ∀ t a, matches Number req (mkBook (Number (params_id req)) t a) = true.
Proof.
  unfold matches. intros (z & Hb & Hn)%strict_eq_true.
  split; [congruence|]. intros t a. simpl. rewrite Hn. apply Z.eqb_refl.
Qed.

Lemma findIndex_exists store req :
  (∃ b, b ∈ store ∧ matches Number req b = true) →
  ∃ l1 b l2, store = l1 ++ b :: l2
    ∧ Forall (λ x, matches Number req x = false) l1
    ∧ matches Number req b = true
    ∧ findIndex (matches Number req) store = Some (length l1).
Proof.
  intros (b & Hin & Hb).
  destruct (findIndex_is_Some _ _ _ Hin Hb) as [index Hi].
  pose proof Hi as (l1 & x & l2 & -> & <- & Hx & Hl1)%findIndex_Some.
  by exists l1, x, l2.
Qed.

Lemma no_match_after_delete l1 b l2 req :
  NoDup (id <$> (l1 ++ b :: l2)) →
  Forall (λ x, matches Number req x = false) l1 →
  matches Number req b = true →
  Forall (λ x, matches Number req x = false) (l1 ++ l2).
Proof.
  intros Hnd Hl1 Hb. apply Forall_app. split; [done|].
  rewrite fmap_app, fmap_cons in Hnd.
  apply NoDup_app in Hnd as (_ & _ & [Hnotin _]%NoDup_cons).
  apply Forall_forall. intros x Hx.
  destruct (matches Number req x) eqn:Hm; [|done].
  destruct Hnotin. apply matches_self in Hb as [-> _].
  apply matches_self in Hm as [<- _]. by apply list_elem_of_fmap_2.
Qed.

Lemma delete_book_found store req :
  status (delete_book Number store req).2 = 204 →
  ∃ l1 b l2, store = l1 ++ b :: l2
    ∧ Forall (λ x, matches Number req x = false) l1
    ∧ matches Number req b = true
    ∧ (delete_book Number store req).1 = l1 ++ l2.
Proof.
  unfold delete_book.
  destruct (findIndex _ store) as [index|] eqn:Hi; [|done]. intros _.
  apply findIndex_Some in Hi as (l1 & b & l2 & -> & <- & Hb & Hl1).
  exists l1, b, l2. split_and!; [done..|]. apply delete_middle.
Qed.

(** ** The ids given out by a run of requests *)

Lemma created_ids_cons store rt req reqs :
  created_ids Number store ((rt, req) :: reqs) =
  match created_id rt (handle Number store rt req).2 with
  | Some i => i :: created_ids Number (handle Number store rt req).1 reqs
  | None => created_ids Number (handle Number store rt req).1 reqs
  end.
Proof.
  unfold created_ids. simpl.
  destruct (handle Number store rt req) as [store' res]. simpl.
  destruct (serve Number store' reqs) as [store'' ress]. simpl.
  by destruct (created_id rt res).
Qed.

Lemma created_ids_from store reqs c :
  Forall (λ p, p.1 ≠ DELETE_books_id) reqs →
  newId store = Num c →
  created_ids Number store reqs =
    (λ k, Num (Z.of_nat k + c)) <$>
      seq 0 (length (filter (λ p, p.1 = POST_books) reqs)).
Proof.
  intros Hreqs. revert store c.
  induction Hreqs as [|[rt req] reqs Hrt _ IH]; intros store c Hc; [done|].
  rewrite created_ids_cons, filter_cons. simpl in Hrt.
  destruct rt; simpl; try done.
  - by apply IH.
  - unfold get_book. destruct (find _ _); by apply IH.
  - rewrite Hc. f_equal.
    rewrite (IH _ (c + 1)%Z) by (by rewrite newId_snoc).
    rewrite <- fmap_S_seq, <- list_fmap_compose.
    apply list_fmap_ext. intros _ k _. simpl. f_equal. lia.
  - apply IH. by rewrite (newId_ids _ store) by apply put_book_ids.
  - by apply IH.
Qed.

Lemma no_match_not_found store req :
  Forall (λ b, matches Number req b = false) store →
  get_book Number store req = (store, not_found)
  ∧ put_book Number store req = (store, not_found)
  ∧ delete_book Number store req = (store, not_found).
Proof.
  intros H%findIndex_None.
  unfold get_book, put_book, delete_book. rewrite find_findIndex, H. done.
Qed.

(** The two cases of a handler of [/books/:id], for the status of its
    response. *)
Local Ltac found_case :=
  split_and!;
    [split; [done | intros [_ ?%findIndex_None]; congruence] | done | auto].
Local Ltac missing_case Hi :=
  apply findIndex_None in Hi;
  split_and!;
    [split; [intros _; split; [auto | done] | done] | done | auto 6].

(** ** The claims *)

(** C1.  In every store, [POST /books] builds a record whose id is the last
    record's id plus 1, or 1 when the array is empty, with the title and
    author of the body (whatever they are, the empty string included),
    appends it at the end, and answers 201 with that record and the
    self-link [/books/{id}]. *)
Theorem post_books_spec store req :
  let newId := match last store with
               | Some b => add (id b) (Num 1)
               | None => Num 1
               end in
  let newBook := mkBook newId (body_title (body req)) (body_author (body req)) in
  post_books store req =
    (store ++ [newBook],
     mkResponse 201 []
       (JsonBook newBook (mkLinks ("/books/" +:+ to_string newId) None))).
Proof. simpl. unfold post_books. by rewrite newId_last. Qed.

(** C2.  In every reachable store the id [POST /books] assigns is 1 when
    the array is empty, and otherwise m + 1 where m, the id of the last
    record, is the largest id in the array. *)
Theorem reachable_newId_max store :
  reachable Number store →
  (store = [] ∧ newId store = Num 1) ∨
  (∃ b m, last store = Some b ∧ id b = Num m ∧
          Forall (λ b', ∃ z, id b' = Num z ∧ (z ≤ m)%Z) store ∧
          newId store = Num (m + 1)).
Proof.
  intros Hwf%reachable_well_formed.
  destruct (well_formed_newId store Hwf) as [_ Hlt].
  destruct store as [|b store] using rev_ind; [by left|]. right.
  clear IHstore. rewrite newId_snoc in *.
  destruct (id b) as [|m] eqn:Hm.
  { apply Forall_app in Hlt as [_ Hb]. rewrite Forall_singleton in Hb.
    by destruct (id b). }
  exists b, m. rewrite last_snoc. split_and!; [done..| |done].
  apply Forall_app. split; [|apply Forall_singleton; exists m; split; [done|lia]].
  apply Forall_app in Hlt as [Hlt _].
  eapply Forall_impl; [exact Hlt|]. intros b'; simpl.
  destruct (id b') as [|z]; simpl; [done|]. intros ?. exists z. split; [done|lia].
Qed.

(** C3.  In every reachable store no two records have the same id. *)
Theorem reachable_ids_unique store :
  reachable Number store → NoDup (id <$> store).
Proof.
  intros Hwf%reachable_well_formed. by apply well_formed_NoDup.
Qed.

(** C4, amended.  A successful [DELETE /books/i] in a reachable store leaves
    no record with the id i; whatever is served next, [POST /books] assigns
    the id i again only when every record then in the array has an id
    below i. *)
Theorem deleted_id_reused_only_above_live store req reqs :
  reachable Number store →
  status (delete_book Number store req).2 = 204 →
  Forall (λ b, matches Number req b = false) (delete_book Number store req).1
  ∧ let store' := (serve Number (delete_book Number store req).1 reqs).1 in
    (newId store' = Number (params_id req) →
     Forall (λ b, below (id b) (Number (params_id req))) store').
Proof.
  intros Hr Hst. split.
  - destruct (delete_book_found store req Hst)
      as (l1 & b & l2 & -> & Hl1 & Hb & ->).
    apply (no_match_after_delete l1 b l2); [|done..].
    by apply reachable_well_formed, well_formed_NoDup in Hr.
  - intros store' <-.
    apply well_formed_newId, reachable_well_formed, reachable_serve.
    by apply (reachable_handle Number store DELETE_books_id req).
Qed.

(** C5, amended.  Served from the initial store, requests without a
    [DELETE] give the n-th created record the id n + 2 (position k of the
    list of created ids holds k + 3); served from an empty store they give it
    the id n. *)
Theorem created_ids_without_delete reqs :
  Forall (λ p, p.1 ≠ DELETE_books_id) reqs →
  let n := length (filter (λ p, p.1 = POST_books) reqs) in
  created_ids Number initial_books reqs = (λ k, Num (Z.of_nat k + 3)) <$> seq 0 n
  ∧ created_ids Number [] reqs = (λ k, Num (Z.of_nat k + 1)) <$> seq 0 n.
Proof. intros Hreqs. split; by apply created_ids_from. Qed.

(** C6.  When a record matches the path id, [PUT /books/:id] replaces the
    first such record, in place, by the record made of the path id (equal to
    the old id) and the title and author of the body; nothing else of the
    body is used.  A [GET /books/:id] with the same path id then answers with
    that record. *)
Theorem put_book_then_get_book store req :
  (∃ b, b ∈ store ∧ matches Number req b = true) →
  ∃ l1 old l2,
    store = l1 ++ old :: l2
    ∧ Forall (λ b, matches Number req b = false) l1
    ∧ matches Number req old = true
    ∧ let updated :=
        mkBook (Number (params_id req))
          (body_title (body req)) (body_author (body req)) in
      id updated = id old
      ∧ put_book Number store req =
          (l1 ++ updated :: l2,
           mkResponse 200 []
             (JsonBook updated (mkLinks ("/books/" +:+ params_id req) None)))
      ∧ get_book Number (l1 ++ updated :: l2) req =
          (l1 ++ updated :: l2,
           mkResponse 200 []
             (JsonBook updated
                (mkLinks ("/books/" +:+ to_string (id old)) (Some "/books")))).
Proof.
  intros (l1 & old & l2 & -> & Hl1 & Hold & Hi)%findIndex_exists.
  exists l1, old, l2. split_and!; [done..|]. intros updated.
  destruct (matches_self _ _ Hold) as [Hid Hup].
  assert (<[length l1:=updated]> (l1 ++ old :: l2) = l1 ++ updated :: l2) as Hins.
  { by rewrite <- (Nat.add_0_r (length l1)), insert_app_r. }
  split_and!.
  - by rewrite Hid.
  - unfold put_book. rewrite Hi. fold updated. rewrite Hins.
    by rewrite list_lookup_middle.
  - unfold get_book. rewrite find_findIndex.
    assert (findIndex (matches Number req) (l1 ++ updated :: l2)
            = Some (length l1)) as ->.
    { apply findIndex_Some. exists l1, updated, l2. split_and!; try done.
      apply Hup. }
    simpl. rewrite list_lookup_middle by done. by rewrite Hid.
Qed.

(** C7.  When a record matches the path id, [DELETE /books/:id] removes the
    first such record and keeps every other record, unchanged and in order;
    when the ids are unique no remaining record has that id. *)
Theorem delete_book_removes_match store req :
  (∃ b, b ∈ store ∧ matches Number req b = true) →
  ∃ l1 b l2,
    store = l1 ++ b :: l2
    ∧ Forall (λ x, matches Number req x = false) l1
    ∧ matches Number req b = true
    ∧ delete_book Number store req = (l1 ++ l2, mkResponse 204 [] Empty)
    ∧ (NoDup (id <$> store) →
       Forall (λ x, matches Number req x = false) (l1 ++ l2)).
Proof.
  intros (l1 & b & l2 & -> & Hl1 & Hb & Hi)%findIndex_exists.
  exists l1, b, l2. split_and!; [done..| |].
  - unfold delete_book. rewrite Hi. f_equal.
    apply delete_middle.
  - intros Hnd. by apply (no_match_after_delete l1 b l2).
Qed.

(** C8.  A handler answers 404 exactly when it is one of [GET], [PUT],
    [DELETE] on [/books/:id] and no record's id is [===] to the number of
    the path id; a 404 response has no header and no body; every other
    response has status 200, 201 or 204. *)
Theorem not_found_only_error store rt req :
  let res := (handle Number store rt req).2 in
  (status res = 404 ↔
     (rt = GET_books_id ∨ rt = PUT_books_id ∨ rt = DELETE_books_id)
     ∧ Forall (λ b, matches Number req b = false) store)
  ∧ (status res = 404 → res = not_found)
  ∧ (status res = 200 ∨ status res = 201 ∨ status res = 204 ∨ status res = 404).
Proof.
  destruct rt; simpl.
  1,3,6: split_and!; [split; [done | intros [[?|[?|?]] _]; done] | done | auto].
  - unfold get_book. rewrite find_findIndex.
    destruct (findIndex _ store) as [index|] eqn:Hi; simpl.
    + pose proof Hi as (l1 & x & l2 & -> & <- & Hx & _)%findIndex_Some.
      rewrite list_lookup_middle by done. simpl. by found_case.
    + by missing_case Hi.
  - unfold put_book. destruct (findIndex _ store) as [index|] eqn:Hi; simpl.
    + by found_case.
    + by missing_case Hi.
  - unfold delete_book. destruct (findIndex _ store) as [index|] eqn:Hi; simpl.
    + by found_case.
    + by missing_case Hi.
Qed.

(** C9.  When the path id does not parse as a number, [GET], [PUT] and
    [DELETE] on [/books/:id] answer 404 and leave the store alone, exactly
    as they do for any request that matches no record. *)
Theorem unparsable_id_not_found store req :
  Number (params_id req) = NaN →
  (get_book Number store req = (store, not_found)
   ∧ put_book Number store req = (store, not_found)
   ∧ delete_book Number store req = (store, not_found))
  ∧ ∀ rt req',
      rt = GET_books_id ∨ rt = PUT_books_id ∨ rt = DELETE_books_id →
      Forall (λ b, matches Number req' b = false) store →
      handle Number store rt req = handle Number store rt req'.
Proof.
  intros HNaN.
  assert (Forall (λ b, matches Number req b = false) store) as Hno.
  { apply Forall_forall. intros b _. unfold matches. rewrite HNaN.
    apply strict_eq_NaN_r. }
  split; [by apply no_match_not_found|].
  intros rt req' Hrt Hno'.
  destruct (no_match_not_found store req Hno) as (Hg & Hp & Hd).
  destruct (no_match_not_found store req' Hno') as (Hg' & Hp' & Hd').
  destruct Hrt as [->|[->| ->]]; simpl; congruence.
Qed.

(** C10.  A request answered with 404 leaves the store as it was. *)
Theorem not_found_leaves_store store rt req :
  status (handle Number store rt req).2 = 404 →
  (handle Number store rt req).1 = store.
Proof.
  intros H. destruct rt; simpl in *; try done.
  - unfold get_book in *. by destruct (find _ _).
  - unfold put_book in *. by destruct (findIndex _ _).
  - unfold delete_book in *. by destruct (findIndex _ _).
Qed.

(** ** Further properties of the handlers *)

Lemma find_skip (p : Book → bool) l1 b l2 :
  p b = false → find p (l1 ++ b :: l2) = find p (l1 ++ l2).
Proof.
  intros Hb. induction l1 as [|x l1 IH]; simpl; [by rewrite Hb|].
  by destruct (p x).
Qed.

Lemma find_first (p : Book → bool) l1 b l2 :
  Forall (λ x, p x = false) l1 → p b = true → find p (l1 ++ b :: l2) = Some b.
Proof.
  intros Hl1 Hb. induction Hl1 as [|x l1 Hx _ IH]; simpl; [by rewrite Hb|].
  by rewrite Hx.
Qed.

Lemma matches_inv req b :
  matches Number req b = true → id b = Number (params_id req).
Proof. intros H. by apply matches_self in H as [? _]. Qed.

Lemma find_by_id store req b :
  well_formed store → b ∈ store → Number (params_id req) = id b →
  find (matches Number req) store = Some b.
Proof.
  intros Hwf Hin Hn.
  pose proof (well_formed_NoDup _ Hwf) as Hnd.
  destruct Hwf as [Hpos _].
  apply list_elem_of_split in Hin as (l1 & l2 & ->).
  rewrite fmap_app, fmap_cons in Hnd, Hpos.
  apply NoDup_app in Hnd as (_ & Hl1 & _).
  apply Forall_app in Hpos as [_ Hb%Forall_cons_1]. destruct Hb as [Hb _].
  apply find_first.
  - apply Forall_forall. intros x Hx.
    destruct (matches Number req x) eqn:Hm; [|done].
    apply matches_inv in Hm. destruct (Hl1 (id x)).
    + by apply list_elem_of_fmap_2.
    + rewrite Hm, Hn. apply list_elem_of_here.
  - unfold matches. rewrite Hn. destruct (id b); [done|]. apply Z.eqb_refl.
Qed.

(** X1.  In a reachable store, a [GET /books/:id] for the id a [POST] has
    just assigned returns the record the [POST] returned, under the same
    self-link. *)
Theorem get_book_after_post_books store req req' :
  reachable Number store →
  Number (params_id req') = newId store →
  ∃ newBook link,
    post_books store req =
      (store ++ [newBook],
       mkResponse 201 [] (JsonBook newBook (mkLinks link None)))
    ∧ get_book Number (store ++ [newBook]) req' =
        (store ++ [newBook],
         mkResponse 200 [] (JsonBook newBook (mkLinks link (Some "/books")))).
Proof.
  intros Hr Hn.
  pose (newBook := mkBook (newId store) (body_title (body req))
                     (body_author (body req))).
  exists newBook, ("/books/" +:+ to_string (newId store)). split; [done|].
  unfold get_book. rewrite (find_by_id _ _ newBook); [done| |..].
  - apply (well_formed_handle store POST_books req).
    by apply reachable_well_formed.
  - apply elem_of_app. right. apply list_elem_of_here.
  - done.
Qed.

(** X2.  In a reachable store, once [DELETE /books/:id] has answered 204,
    [GET], [PUT] and [DELETE] with the same path id answer 404. *)
Theorem not_found_after_delete_book store req :
  reachable Number store →
  status (delete_book Number store req).2 = 204 →
  let store' := (delete_book Number store req).1 in
  get_book Number store' req = (store', not_found)
  ∧ put_book Number store' req = (store', not_found)
  ∧ delete_book Number store' req = (store', not_found).
Proof.
  intros Hr Hst store'. apply no_match_not_found. subst store'.
  destruct (delete_book_found store req Hst)
    as (l1 & b & l2 & -> & Hl1 & Hb & ->).
  apply (no_match_after_delete l1 b l2); [|done..].
  by apply reachable_well_formed, well_formed_NoDup in Hr.
Qed.

(** X3.  [PUT /books/:id] is idempotent: the same request served a second
    time leaves the store as the first left it and gets the same
    response. *)
Theorem put_book_idempotent store req :
  put_book Number (put_book Number store req).1 req = put_book Number store req.
Proof.
  unfold put_book at 2 3.
  destruct (findIndex _ store) as [index|] eqn:Hi; simpl.
  - pose proof Hi as (l1 & old & l2 & -> & <- & Hold & Hl1)%findIndex_Some.
    destruct (matches_self _ _ Hold) as [_ Hup].
    set (updated := mkBook _ _ _).
    assert (∀ x, <[length l1:=updated]> (l1 ++ x :: l2) = l1 ++ updated :: l2)
      as Hins.
    { intros x. by rewrite <- (Nat.add_0_r (length l1)), insert_app_r. }
    rewrite Hins. unfold put_book.
    assert (findIndex (matches Number req) (l1 ++ updated :: l2)
            = Some (length l1)) as ->.
    { apply findIndex_Some. exists l1, updated, l2. split_and!; try done.
      apply Hup. }
    fold updated. by rewrite Hins.
  - unfold put_book. by rewrite Hi.
Qed.

Lemma handle_length store rt req :
  let res := (handle Number store rt req).2 in
  (status res = 201 ∧ length (handle Number store rt req).1 = S (length store))
  ∨ (status res = 204 ∧ S (length (handle Number store rt req).1) = length store)
  ∨ (status res ≠ 201 ∧ status res ≠ 204
     ∧ length (handle Number store rt req).1 = length store).
Proof.
  destruct rt; simpl.
  - by right; right.
  - unfold get_book. destruct (find _ _); by right; right.
  - left. split; [done|]. rewrite length_app. simpl. lia.
  - unfold put_book. destruct (findIndex _ _); simpl; right; right;
      split_and!; try done. apply length_insert.
  - unfold delete_book.
    destruct (findIndex _ store) as [index|] eqn:Hi; simpl.
    + right; left. split; [done|].
      apply findIndex_Some in Hi as (l1 & b & l2 & -> & <- & _).
      rewrite delete_middle, !length_app. simpl. lia.
    + by right; right.
  - by right; right.
Qed.

(** X4.  Over any run of requests the array grows by one for each response
    201 and shrinks by one for each response 204, and changes length in no
    other way. *)
Theorem serve_length store reqs :
  length (serve Number store reqs).1
    + length (filter (λ res, status res = 204) (serve Number store reqs).2)
  = length store
    + length (filter (λ res, status res = 201) (serve Number store reqs).2).
Proof.
  revert store. induction reqs as [|[rt req] reqs IH]; intros store; [done|].
  simpl. pose proof (handle_length store rt req) as Hh.
  destruct (handle Number store rt req) as [store' res]. simpl in Hh.
  specialize (IH store').
  destruct (serve Number store' reqs) as [store'' ress]. simpl in *.
  rewrite !filter_cons.
  destruct Hh as [[H1 H2]|[[H1 H2]|(H1 & H2 & H3)]];
    repeat case_decide; simpl; try congruence; lia.
Qed.

Lemma StronglySorted_lookup_lt {A} (R : relation A) l i j x y :
  StronglySorted R l → l !! i = Some x → l !! j = Some y → i < j → R x y.
Proof.
  intros Hs. revert i j.
  induction Hs as [|a l Hs IH Ha]; intros i j Hi Hj Hij; [done|].
  destruct j as [|j]; [lia|]. destruct i as [|i]; simpl in *.
  - injection Hi as ->. rewrite Forall_forall in Ha.
    by eapply Ha, list_elem_of_lookup_2.
  - apply (IH i j); [done..|lia].
Qed.

(** X5.  In every reachable store the ids are positive integers, and they
    increase strictly with the position in the array. *)
Theorem reachable_ids_increasing store :
  reachable Number store →
  (∀ i b, store !! i = Some b → ∃ z, id b = Num z ∧ (1 ≤ z)%Z)
  ∧ (∀ i j bi bj,
       store !! i = Some bi → store !! j = Some bj → i < j →
       ∃ zi zj, id bi = Num zi ∧ id bj = Num zj ∧ (zi < zj)%Z).
Proof.
  intros [Hpos Hs]%reachable_well_formed. split.
  - intros i b Hi. rewrite Forall_forall in Hpos.
    assert (positive_int (id b)) as Hb.
    { apply Hpos, list_elem_of_fmap_2. by eapply list_elem_of_lookup_2. }
    destruct (id b) as [|z]; [done|]. by exists z.
  - intros i j bi bj Hi Hj Hij.
    assert (below (id bi) (id bj)) as Hlt.
    { apply (StronglySorted_lookup_lt _ (id <$> store) i j); [done| | |done];
        by rewrite list_lookup_fmap, ?Hi, ?Hj. }
    destruct (id bi) as [|zi], (id bj) as [|zj]; try done. by exists zi, zj.
Qed.

(** X6.  A run of [GET] requests leaves the store as it is, and each of its
    responses is the one the request gets when it is served alone. *)
Theorem serve_reads store reqs :
  Forall (λ p, is_read p.1 = true) reqs →
  serve Number store reqs
  = (store, (λ p, (handle Number store p.1 p.2).2) <$> reqs).
Proof.
  induction 1 as [|[rt req] reqs Hrt _ IH]; [done|].
  simpl in *.
  assert ((handle Number store rt req).1 = store) as Hst.
  { destruct rt; try done. simpl. unfold get_book. by destruct (find _ _). }
  destruct (handle Number store rt req) as [store' res]. simpl in *.
  subst store'. by rewrite IH.
Qed.

(** X7.  [GET /books/:id] answers 200 exactly when some record's id is
    [===] to the number of the path id, and then with the first such record
    of the array and the links [/books/{its id}] and [/books]. *)
Theorem get_book_first_match store req :
  (status (get_book Number store req).2 = 200
   ↔ ∃ b, b ∈ store ∧ matches Number req b = true)
  ∧ ((∃ b, b ∈ store ∧ matches Number req b = true) →
     ∃ l1 b l2,
       store = l1 ++ b :: l2
       ∧ Forall (λ x, matches Number req x = false) l1
       ∧ id b = Number (params_id req)
       ∧ get_book Number store req =
           (store,
            mkResponse 200 []
              (JsonBook b
                 (mkLinks ("/books/" +:+ to_string (id b)) (Some "/books"))))).
Proof.
  assert ((∃ b, b ∈ store ∧ matches Number req b = true) →
     ∃ l1 b l2,
       store = l1 ++ b :: l2
       ∧ Forall (λ x, matches Number req x = false) l1
       ∧ id b = Number (params_id req)
       ∧ get_book Number store req =
           (store,
            mkResponse 200 []
              (JsonBook b
                 (mkLinks ("/books/" +:+ to_string (id b)) (Some "/books")))))
    as Hfound.
  { intros (l1 & b & l2 & -> & Hl1 & Hb & _)%findIndex_exists.
    exists l1, b, l2. split_and!; [done..|by apply matches_inv|].
    unfold get_book. by rewrite find_first. }
  split; [|done]. split.
  - unfold get_book. destruct (find _ store) as [b|] eqn:Hf; [|done].
    intros _. apply find_some in Hf as [Hin Hb].
    exists b. by rewrite list_elem_of_In.
  - intros (l1 & b & l2 & _ & _ & _ & ->)%Hfound. done.
Qed.

(** X8.  [GET /books] lists the records of the store in the order of the
    array; in a reachable store, a [GET /books/:id] whose path id is the
    number of a listed record's id returns that record under the self-link
    the list gave for it. *)
Theorem listed_book_can_be_fetched store req :
  reachable Number store →
  ∃ data,
    get_books store req =
      (store,
       mkResponse 200 [("Cache-Control", "public, max-age=60")]
         (JsonBooks data (mkLinks "/books" None)))
    ∧ data.*1 = store
    ∧ ∀ book links req',
        (book, links) ∈ data →
        Number (params_id req') = id book →
        get_book Number store req' =
          (store,
           mkResponse 200 []
             (JsonBook book (mkLinks (self links) (Some "/books")))).
Proof.
  intros Hwf%reachable_well_formed. eexists. split; [reflexivity|]. split.
  - rewrite <- list_fmap_compose. apply list_fmap_id.
  - intros book links req' (b & [= -> ->] & Hin)%list_elem_of_fmap Hn.
    unfold get_book. by rewrite (find_by_id _ _ b).
Qed.

(** X9.  A successful [DELETE /books/:id] changes the id the next [POST]
    assigns only when it removes the last record of the array; in a
    reachable store the next id is then at most the id just deleted. *)
Theorem newId_after_delete_book store req :
  reachable Number store →
  status (delete_book Number store req).2 = 204 →
  ∃ l1 b l2,
    store = l1 ++ b :: l2
    ∧ (delete_book Number store req).1 = l1 ++ l2
    ∧ (l2 ≠ [] → newId (l1 ++ l2) = newId store)
    ∧ (l2 = [] →
       ∃ z n, id b = Num z ∧ newId (l1 ++ l2) = Num n ∧ (1 ≤ n ≤ z)%Z).
Proof.
  intros Hwf%reachable_well_formed Hst.
  destruct (delete_book_found store req Hst)
    as (l1 & b & l2 & -> & _ & _ & Hdel).
  exists l1, b, l2. split_and!; [done..| |].
  - intros Hl2. destruct l2 as [|x l2]; [done|].
    by rewrite !newId_last, !last_app_cons, last_cons_cons.
  - intros ->. rewrite app_nil_r.
    assert (well_formed l1) as Hwf1.
    { destruct Hwf as [Hp Hs]. rewrite fmap_app in Hp, Hs.
      split; [by apply Forall_app in Hp as [? _]
             | by apply StronglySorted_app_1_l in Hs]. }
    destruct (well_formed_newId _ Hwf1) as [Hpos1 _].
    destruct Hwf as [Hp Hs]. rewrite fmap_app in Hp, Hs. simpl in Hp, Hs.
    apply Forall_app in Hp as [_ Hb]. rewrite Forall_singleton in Hb.
    destruct (id b) as [|z] eqn:Hz; [done|].
    destruct (newId l1) as [|n] eqn:Hn; [done|].
    exists z, n. split_and!; [done..| |]; [by simpl in Hpos1|].
    destruct l1 as [|x l1 _] using rev_ind.
    + injection Hn as <-. by simpl in Hb.
    + rewrite newId_snoc in Hn.
      assert (below (id x) (Num z)) as Hx.
      { apply (StronglySorted_app_1_elem_of _ _ _ _ _ Hs);
          [|apply list_elem_of_here].
        apply list_elem_of_fmap_2, elem_of_app. right.
        apply list_elem_of_here. }
      destruct (id x) as [|zx]; [done|]. simpl in Hn, Hx.
      injection Hn as <-. lia.
Qed.

(** X10.  A response carries no body exactly when its status is 204 or
    404. *)
Theorem empty_payload_iff store rt req :
  let res := (handle Number store rt req).2 in
  payload res = Empty ↔ status res = 204 ∨ status res = 404.
Proof.
  destruct rt; simpl.
  - split; [done | by intros [|]].
  - unfold get_book. destruct (find _ _); simpl;
      (split; [try done; auto | try done; by intros [|]]).
  - split; [done | by intros [|]].
  - unfold put_book. destruct (findIndex _ _); simpl;
      (split; [try done; auto | try done; by intros [|]]).
  - unfold delete_book. destruct (findIndex _ _); simpl; split; auto.
  - split; [done | by intros [|]].
Qed.

(** X11.  [PUT /books/:id] changes no id: the ids of the array, its length
    and the id the next [POST] assigns are what they were, whatever the
    request. *)
Theorem put_book_keeps_ids store req :
  id <$> (put_book Number store req).1 = id <$> store
  ∧ length (put_book Number store req).1 = length store
  ∧ newId (put_book Number store req).1 = newId store.
Proof.
  pose proof (put_book_ids store req) as Hids. split_and!; [done| |].
  - by rewrite <- (length_fmap id), Hids, length_fmap.
  - by apply newId_ids.
Qed.

Lemma get_book_response store store' req :
  find (matches Number req) store' = find (matches Number req) store →
  (get_book Number store' req).2 = (get_book Number store req).2.
Proof. unfold get_book. intros ->. by destruct (find _ _). Qed.

(** X12.  A [POST], [PUT] or [DELETE] changes the answer of
    [GET /books/:id] for its own id only: a [GET] whose path id is another
    number (for [POST]: not the id assigned) is answered as before. *)
Theorem get_book_frame store req req' :
  (Number (params_id req') ≠ newId store →
   (get_book Number (post_books store req).1 req').2
   = (get_book Number store req').2)
  ∧ (Number (params_id req') ≠ Number (params_id req) →
     (get_book Number (put_book Number store req).1 req').2
     = (get_book Number store req').2
     ∧ (get_book Number (delete_book Number store req).1 req').2
       = (get_book Number store req').2).
Proof.
  assert (∀ b, id b ≠ Number (params_id req') →
               matches Number req' b = false) as Hno.
  { intros b Hb. destruct (matches Number req' b) eqn:Hm; [|done].
    by apply matches_inv in Hm. }
  split.
  - intros Hn. apply get_book_response. simpl.
    rewrite (find_skip _ store _ []), app_nil_r; [done|].
    apply Hno. simpl. congruence.
  - intros Hn. split; apply get_book_response.
    + unfold put_book.
      destruct (findIndex _ store) as [index|] eqn:Hi; [|done]. simpl.
      apply findIndex_Some in Hi as (l1 & old & l2 & -> & <- & Hold & _).
      rewrite <- (Nat.add_0_r (length l1)), insert_app_r. simpl.
      rewrite !find_skip; [done|..]; apply Hno.
      * apply matches_inv in Hold. congruence.
      * simpl. congruence.
    + unfold delete_book.
      destruct (findIndex _ store) as [index|] eqn:Hi; [|done]. simpl.
      apply findIndex_Some in Hi as (l1 & old & l2 & -> & <- & Hold & _).
      rewrite delete_middle. symmetry. apply find_skip, Hno.
      apply matches_inv in Hold. congruence.
Qed.

End Facts.

(** * The handlers on concrete requests *)

(** ** The scenarios of the specification *)

(** Seed data, [DELETE /books/1], then [POST /books]: the new record has
    id 3. *)
Example delete_first_then_create :
  created_ids Number_decimal initial_books
    [(DELETE_books_id, on_id "1" "" ""); post (mkBody None "Book3" "Author3")]
  = [Num 3].
Proof. reflexivity. Qed.

(** [GET /books/999] on the seed data: 404 and no body. *)
Example get_999 :
  get_book Number_decimal initial_books (on_id "999" "" "")
  = (initial_books, mkResponse 404 [] Empty).
Proof. reflexivity. Qed.

(** [PUT /books/1] with title X and author Y on the seed data, then
    [GET /books/1]. *)
Example put_1_then_get_1 :
  (serve Number_decimal initial_books
     [(PUT_books_id, on_id "1" "X" "Y"); (GET_books_id, on_id "1" "" "")]).2
    !! 1
  = Some (mkResponse 200 []
            (JsonBook (mkBook (Num 1) "X" "Y")
               (mkLinks "/books/1" (Some "/books")))).
Proof. reflexivity. Qed.

(** The store after [three_requests]. *)
Example store_after_three_requests :
  (serve Number_decimal initial_books three_requests).1
  = [mkBook (Num 2) "X" "Y"; mkBook (Num 3) "Book3" "Author3"].
Proof. reflexivity. Qed.

(** ** Instances of the theorems, and the two refuted sentences *)

Lemma reachable_newId_max_witness :
  reachable Number_decimal initial_books
  ∧ ((initial_books = [] ∧ newId initial_books = Num 1)
     ∨ ∃ b m, last initial_books = Some b ∧ id b = Num m
         ∧ Forall (λ b', ∃ z, id b' = Num z ∧ (z ≤ m)%Z) initial_books
         ∧ newId initial_books = Num (m + 1)).
Proof.
  split; [constructor|].
  apply (reachable_newId_max Number_decimal initial_books). constructor.
Defined.

Lemma reachable_ids_unique_witness :
  reachable Number_decimal
    (serve Number_decimal initial_books three_requests).1
  ∧ NoDup (id <$> (serve Number_decimal initial_books three_requests).1).
Proof.
  assert (reachable Number_decimal
            (serve Number_decimal initial_books three_requests).1) as Hr
    by (apply reachable_serve; constructor).
  split; [exact Hr|].
  apply (reachable_ids_unique Number_decimal _ Hr).
Defined.

(** C4 as it is written fails: on the seed data, [DELETE /books/2] leaves
    the record with id 1 last, and the next [POST /books] assigns 2 again. *)
Lemma deleted_id_reused : ¬ deleted_id_never_reused Number_decimal.
Proof.
  intros H.
  apply (H initial_books (on_id "2" "" "") []);
    [constructor | reflexivity | reflexivity].
Qed.

Lemma deleted_id_reused_only_above_live_witness :
  reachable Number_decimal initial_books
  ∧ status (delete_book Number_decimal initial_books (on_id "2" "" "")).2 = 204
  ∧ Forall (λ b, matches Number_decimal (on_id "2" "" "") b = false)
      (delete_book Number_decimal initial_books (on_id "2" "" "")).1
  ∧ (newId (serve Number_decimal
              (delete_book Number_decimal initial_books (on_id "2" "" "")).1
              []).1
     = Number_decimal "2" →
     Forall (λ b, below (id b) (Number_decimal "2"))
       (serve Number_decimal
          (delete_book Number_decimal initial_books (on_id "2" "" "")).1
          []).1).
Proof.
  split_and!; [constructor | reflexivity |..];
    apply (deleted_id_reused_only_above_live Number_decimal initial_books
             (on_id "2" "" "") []);
    first [constructor | reflexivity].
Defined.

(** C5 as it is written fails: the initial store holds the ids 1 and 2, so
    the first created record gets the id 3. *)
Lemma first_created_id_not_1 : ¬ nth_created_id_is_n Number_decimal.
Proof.
  intros H. specialize (H [mkBody None "Book3" "Author3"]).
  vm_compute in H. discriminate H.
Qed.

Lemma created_ids_without_delete_witness :
  Forall (λ p, p.1 ≠ DELETE_books_id) four_requests
  ∧ created_ids Number_decimal initial_books four_requests = [Num 3; Num 4]
  ∧ created_ids Number_decimal [] four_requests = [Num 1; Num 2].
Proof.
  assert (Forall (λ p, p.1 ≠ DELETE_books_id) four_requests) as Hreqs
    by (repeat constructor; discriminate).
  split; [exact Hreqs|].
  apply (created_ids_without_delete Number_decimal four_requests Hreqs).
Defined.

Lemma put_book_then_get_book_witness :
  (∃ b, b ∈ initial_books
        ∧ matches Number_decimal put_1_with_payload_id b = true)
  ∧ ∃ l1 old l2,
      initial_books = l1 ++ old :: l2
      ∧ Forall (λ b, matches Number_decimal put_1_with_payload_id b = false) l1
      ∧ matches Number_decimal put_1_with_payload_id old = true
      ∧ id (mkBook (Num 1) "X" "Y") = id old
      ∧ put_book Number_decimal initial_books put_1_with_payload_id =
          (l1 ++ mkBook (Num 1) "X" "Y" :: l2,
           mkResponse 200 []
             (JsonBook (mkBook (Num 1) "X" "Y") (mkLinks "/books/1" None)))
      ∧ get_book Number_decimal (l1 ++ mkBook (Num 1) "X" "Y" :: l2)
          put_1_with_payload_id =
          (l1 ++ mkBook (Num 1) "X" "Y" :: l2,
           mkResponse 200 []
             (JsonBook (mkBook (Num 1) "X" "Y")
                (mkLinks ("/books/" +:+ to_string (id old)) (Some "/books")))).
Proof.
  assert (∃ b, b ∈ initial_books
               ∧ matches Number_decimal put_1_with_payload_id b = true) as Hex.
  { exists (mkBook (Num 1) "Book1" "Author1").
    split; [apply list_elem_of_here | reflexivity]. }
  split; [exact Hex|].
  apply (put_book_then_get_book Number_decimal initial_books
           put_1_with_payload_id Hex).
Defined.

Lemma delete_book_removes_match_witness :
  (∃ b, b ∈ initial_books ∧ matches Number_decimal (on_id "1" "" "") b = true)
  ∧ ∃ l1 b l2,
      initial_books = l1 ++ b :: l2
      ∧ Forall (λ x, matches Number_decimal (on_id "1" "" "") x = false) l1
      ∧ matches Number_decimal (on_id "1" "" "") b = true
      ∧ delete_book Number_decimal initial_books (on_id "1" "" "")
          = (l1 ++ l2, mkResponse 204 [] Empty)
      ∧ (NoDup (id <$> initial_books) →
         Forall (λ x, matches Number_decimal (on_id "1" "" "") x = false)
           (l1 ++ l2)).
Proof.
  assert (∃ b, b ∈ initial_books
               ∧ matches Number_decimal (on_id "1" "" "") b = true) as Hex.
  { exists (mkBook (Num 1) "Book1" "Author1").
    split; [apply list_elem_of_here | reflexivity]. }
  split; [exact Hex|].
  apply (delete_book_removes_match Number_decimal initial_books
           (on_id "1" "" "") Hex).
Defined.

Lemma unparsable_id_not_found_witness :
  Number_decimal (params_id (on_id "abc" "X" "Y")) = NaN
  ∧ (get_book Number_decimal initial_books (on_id "abc" "X" "Y")
       = (initial_books, not_found)
     ∧ put_book Number_decimal initial_books (on_id "abc" "X" "Y")
         = (initial_books, not_found)
     ∧ delete_book Number_decimal initial_books (on_id "abc" "X" "Y")
         = (initial_books, not_found))
  ∧ ∀ rt req',
      rt = GET_books_id ∨ rt = PUT_books_id ∨ rt = DELETE_books_id →
      Forall (λ b, matches Number_decimal req' b = false) initial_books →
      handle Number_decimal initial_books rt (on_id "abc" "X" "Y")
        = handle Number_decimal initial_books rt req'.
Proof.
  split; [reflexivity|].
  apply (unparsable_id_not_found Number_decimal initial_books
           (on_id "abc" "X" "Y")).
  reflexivity.
Defined.

Lemma not_found_leaves_store_witness :
  status (handle Number_decimal initial_books PUT_books_id
            (on_id "999" "X" "Y")).2 = 404
  ∧ (handle Number_decimal initial_books PUT_books_id (on_id "999" "X" "Y")).1
    = initial_books.
Proof.
  split; [reflexivity|].
  apply (not_found_leaves_store Number_decimal initial_books PUT_books_id
           (on_id "999" "X" "Y")).
  reflexivity.
Defined.

(** ** Instances of the further properties *)

Lemma get_book_after_post_books_witness :
  reachable Number_decimal initial_books
  ∧ Number_decimal (params_id (on_id "3" "" "")) = newId initial_books
  ∧ ∃ newBook link,
      post_books initial_books (on_id "" "Book3" "Author3") =
        (initial_books ++ [newBook],
         mkResponse 201 [] (JsonBook newBook (mkLinks link None)))
      ∧ get_book Number_decimal (initial_books ++ [newBook]) (on_id "3" "" "") =
          (initial_books ++ [newBook],
           mkResponse 200 []
             (JsonBook newBook (mkLinks link (Some "/books")))).
Proof.
  split_and!; [constructor | reflexivity |].
  apply (get_book_after_post_books Number_decimal initial_books
           (on_id "" "Book3" "Author3") (on_id "3" "" ""));
    [constructor | reflexivity].
Defined.

Lemma not_found_after_delete_book_witness :
  reachable Number_decimal initial_books
  ∧ status (delete_book Number_decimal initial_books (on_id "1" "" "")).2 = 204
  ∧ get_book Number_decimal
      (delete_book Number_decimal initial_books (on_id "1" "" "")).1
      (on_id "1" "" "")
    = ((delete_book Number_decimal initial_books (on_id "1" "" "")).1,
       not_found)
  ∧ put_book Number_decimal
      (delete_book Number_decimal initial_books (on_id "1" "" "")).1
      (on_id "1" "" "")
    = ((delete_book Number_decimal initial_books (on_id "1" "" "")).1,
       not_found)
  ∧ delete_book Number_decimal
      (delete_book Number_decimal initial_books (on_id "1" "" "")).1
      (on_id "1" "" "")
    = ((delete_book Number_decimal initial_books (on_id "1" "" "")).1,
       not_found).
Proof.
  split_and!; [constructor | reflexivity |..];
    apply (not_found_after_delete_book Number_decimal initial_books
             (on_id "1" "" ""));
    first [constructor | reflexivity].
Defined.

Lemma reachable_ids_increasing_witness :
  reachable Number_decimal
    (serve Number_decimal initial_books three_requests).1
  ∧ (∀ i b,
       (serve Number_decimal initial_books three_requests).1 !! i = Some b →
       ∃ z, id b = Num z ∧ (1 ≤ z)%Z)
  ∧ (∀ i j bi bj,
       (serve Number_decimal initial_books three_requests).1 !! i = Some bi →
       (serve Number_decimal initial_books three_requests).1 !! j = Some bj →
       i < j →
       ∃ zi zj, id bi = Num zi ∧ id bj = Num zj ∧ (zi < zj)%Z).
Proof.
  assert (reachable Number_decimal
            (serve Number_decimal initial_books three_requests).1) as Hr
    by (apply reachable_serve; constructor).
  split; [exact Hr|].
  apply (reachable_ids_increasing Number_decimal _ Hr).
Defined.

Lemma serve_reads_witness :
  Forall (λ p, is_read p.1 = true) read_requests
  ∧ serve Number_decimal initial_books read_requests
    = (initial_books,
       (λ p, (handle Number_decimal initial_books p.1 p.2).2)
         <$> read_requests).
Proof.
  assert (Forall (λ p, is_read p.1 = true) read_requests) as Hreads
    by (repeat constructor).
  split; [exact Hreads|].
  apply (serve_reads Number_decimal initial_books read_requests Hreads).
Defined.

Lemma get_book_first_match_witness :
  (∃ b, b ∈ initial_books ∧ matches Number_decimal (on_id "2" "" "") b = true)
  ∧ ∃ l1 b l2,
      initial_books = l1 ++ b :: l2
      ∧ Forall (λ x, matches Number_decimal (on_id "2" "" "") x = false) l1
      ∧ id b = Number_decimal "2"
      ∧ get_book Number_decimal initial_books (on_id "2" "" "") =
          (initial_books,
           mkResponse 200 []
             (JsonBook b
                (mkLinks ("/books/" +:+ to_string (id b)) (Some "/books")))).
Proof.
  assert (∃ b, b ∈ initial_books
               ∧ matches Number_decimal (on_id "2" "" "") b = true) as Hex.
  { exists (mkBook (Num 2) "Book2" "Author2").
    split; [apply list_elem_of_further, list_elem_of_here | reflexivity]. }
  split; [exact Hex|].
  apply (proj2 (get_book_first_match Number_decimal initial_books
                  (on_id "2" "" "")) Hex).
Defined.

Lemma listed_book_can_be_fetched_witness :
  reachable Number_decimal initial_books
  ∧ ∃ data,
      get_books initial_books (on_id "" "" "") =
        (initial_books,
         mkResponse 200 [("Cache-Control", "public, max-age=60")]
           (JsonBooks data (mkLinks "/books" None)))
      ∧ data.*1 = initial_books
      ∧ ∀ book links req',
          (book, links) ∈ data →
          Number_decimal (params_id req') = id book →
          get_book Number_decimal initial_books req' =
            (initial_books,
             mkResponse 200 []
               (JsonBook book (mkLinks (self links) (Some "/books")))).
Proof.
  split; [constructor|].
  apply (listed_book_can_be_fetched Number_decimal initial_books
           (on_id "" "" "")).
  constructor.
Defined.

Lemma newId_after_delete_book_witness :
  reachable Number_decimal initial_books
  ∧ status (delete_book Number_decimal initial_books (on_id "2" "" "")).2 = 204
  ∧ ∃ l1 b l2,
      initial_books = l1 ++ b :: l2
      ∧ (delete_book Number_decimal initial_books (on_id "2" "" "")).1
        = l1 ++ l2
      ∧ (l2 ≠ [] → newId (l1 ++ l2) = newId initial_books)
      ∧ (l2 = [] →
         ∃ z n, id b = Num z ∧ newId (l1 ++ l2) = Num n ∧ (1 ≤ n ≤ z)%Z).
Proof.
  split_and!; [constructor | reflexivity |].
  apply (newId_after_delete_book Number_decimal initial_books
           (on_id "2" "" ""));
    [constructor | reflexivity].
Defined.

Lemma get_book_frame_witness :
  Number_decimal "2" ≠ newId initial_books
  ∧ Number_decimal "2" ≠ Number_decimal "1"
  ∧ (get_book Number_decimal
       (post_books initial_books (on_id "" "Book3" "Author3")).1
       (on_id "2" "" "")).2
    = (get_book Number_decimal initial_books (on_id "2" "" "")).2
  ∧ (get_book Number_decimal
       (put_book Number_decimal initial_books (on_id "1" "X" "Y")).1
       (on_id "2" "" "")).2
    = (get_book Number_decimal initial_books (on_id "2" "" "")).2
  ∧ (get_book Number_decimal
       (delete_book Number_decimal initial_books (on_id "1" "X" "Y")).1
       (on_id "2" "" "")).2
    = (get_book Number_decimal initial_books (on_id "2" "" "")).2.
Proof.
  assert (Number_decimal "2" ≠ newId initial_books) as H1 by discriminate.
  assert (Number_decimal "2" ≠ Number_decimal "1") as H2 by discriminate.
  split_and!; [exact H1 | exact H2 | ..].
  - apply (proj1 (get_book_frame Number_decimal initial_books
                    (on_id "" "Book3" "Author3") (on_id "2" "" "")) H1).
  - apply (proj2 (get_book_frame Number_decimal initial_books
                    (on_id "1" "X" "Y") (on_id "2" "" "")) H2).
  - apply (proj2 (get_book_frame Number_decimal initial_books
                    (on_id "1" "X" "Y") (on_id "2" "" "")) H2).
Defined.
